(** * State-management counter demos: a shallow embedding

    The repository holds five small React examples (Context API, Zustand,
    Recoil, Jotai, MobX).  Four of them keep a JavaScript number [count]
    that a button increments; the Context API example keeps a theme
    string that a button toggles.

    Each example is embedded as: a store state, a render function that
    builds the element shown on screen together with the [onClick]
    closure of its button, and a [click] step that runs the handler of
    the element currently on screen (event handlers run to completion
    and the component is rendered again before the next event). *)

From Stdlib Require Import ZArith NArith Bool String List Lia PrimFloat Uint63.
Import ListNotations.

Local Open Scope Z_scope.

(** ** JavaScript numbers holding integers

    A JavaScript number is an IEEE 754 binary64 value.  The counters only
    ever hold integers, so a number is represented by the integer it
    denotes, and every arithmetic result is rounded to the nearest
    integer that has a 53-bit significand, ties going to the even
    significand.  (Magnitudes of 2^1024 and above, where binary64
    overflows to Infinity, are outside this representation; the counters
    stay far below.) *)
Module Number.

Definition number := Z.

(** [Number.MAX_SAFE_INTEGER + 1]: up to here every integer is a number. *)
Definition two53 : Z := 2 ^ 53.

(** Round an exact integer result to binary64, nearest, ties to even. *)
Definition round (z : Z) : number :=
  let a := Z.abs z in
  let e := Z.log2 a - 52 in
  if e <=? 0 then z
  else
    let ulp := 2 ^ e in
    let q := a / ulp in
    let r := a mod ulp in
    let half := ulp / 2 in
    let q' := if r <? half then q
              else if half <? r then q + 1
              else if Z.even q then q else q + 1 in
    Z.sgn z * (q' * ulp).

(** An integer that is a binary64 value. *)
Definition representable (z : Z) : Prop := round z = z.

(** The [+] and [*] operators on numbers. *)
Definition add (a b : number) : number := round (a + b).
Definition mul (a b : number) : number := round (a * b).

(** The same integer as a primitive binary64 float, for non-negative
    values below 2^63; used to test [round] against the hardware
    arithmetic. *)
Definition to_float (z : Z) : float := PrimFloat.of_uint63 (Uint63.of_Z z).

End Number.

Import Number.

(** ** What a counter component puts on screen

    [<p>label{value}</p>] paragraphs and one button with its [onClick]
    closure.  The closure maps the store as it is when the event fires
    to the store after the handler has run. *)
Module View.

Record Element (Store : Type) : Type := mkElement {
  paragraphs : list (string * number);
  onClick : Store -> Store
}.
Arguments mkElement {Store} _ _.
Arguments paragraphs {Store} _.
Arguments onClick {Store} _.

(** The number shown in the paragraph that starts with [label]. *)
Definition shown {Store : Type} (label : string) (el : Element Store)
  : option number :=
  match find (fun p => String.eqb (fst p) label) (paragraphs el) with
  | Some p => Some (snd p)
  | None => None
  end.

End View.

Import View.

(** ** Zustand (src/Zustand.js) *)
Module Zustand.

(** The store object is [{ count, increment }]; [increment] is the same
    closure for the whole life of the store, so [count] is the only
    member that varies. *)
Record State : Type := mkState { count : number }.

(** The object handed to [set]: the members it mentions. *)
Record Partial : Type := mkPartial { new_count : option number }.

(** [set(fn)] computes [fn(state)] and merges it into the state. *)
Definition set (fn : State -> Partial) (state : State) : State :=
  match new_count (fn state) with
  | Some c => mkState c
  | None => state
  end.

(** [increment: () => set((state) => ({ count: state.count + 1 }))] *)
Definition increment : State -> State :=
  set (fun state => mkPartial (Some (add (count state) 1))).

(** [create((set) => ({ count: 0, increment: ... }))] *)
Definition useStore : State := mkState 0.

Definition Counter (store : State) : Element State :=
  let count := count store in
  mkElement [("Count: "%string, count)] increment.

End Zustand.

(** ** Recoil (src/Recoil.js) *)
Module Recoil.

(** [atom({ key: 'countState', default: 0 })]: the store is the value
    of the one atom. *)
Definition countState : number := 0.

(** [selector({ get: ({ get }) => get(countState) * 2 })], given the
    current value of [countState]. *)
Definition doubleCountState (get_countState : number) : number :=
  mul get_countState 2.

(** The handler [() => setCount(count + 1)] closes over the [count] of
    the render that created it, not over the atom. *)
Definition Counter (atom_value : number) : Element number :=
  let count := atom_value in
  let setCount (v : number) : number -> number := fun _ => v in
  let doubleCount := doubleCountState atom_value in
  mkElement [("Count: "%string, count); ("Double Count: "%string, doubleCount)]
            (setCount (add count 1)).

End Recoil.

(** ** Jotai *)
Module Jotai.

(** [atom(0)] *)
Definition countAtom : number := 0.

(** The handler [() => setCount((c) => c + 1)]: the updater receives the
    atom's current value. *)
Definition Counter (atom_value : number) : Element number :=
  let count := atom_value in
  let setCount (fn : number -> number) : number -> number :=
    fun current => fn current in
  mkElement [("Count: "%string, count)] (setCount (fun c => add c 1)).

End Jotai.

(** ** MobX *)
Module MobX.

(** [class CounterStore { count = 0; ... }] *)
Record CounterStore : Type := mkCounterStore { count : number }.

(** [increment() { this.count++; }] *)
Definition increment (this : CounterStore) : CounterStore :=
  mkCounterStore (add (count this) 1).

(** [new CounterStore()] *)
Definition counterStore : CounterStore := mkCounterStore 0.

(** The handler [() => counterStore.increment()] acts on the one global
    store object. *)
Definition Counter (store : CounterStore) : Element CounterStore :=
  mkElement [("Count: "%string, count store)] (fun current => increment current).

End MobX.

(** ** React Context API *)
Module ContextAPI.

(** [useState('light')] in [ThemeProvider]. *)
Definition initial_theme : string := "light".

(** The context value [{ theme, setTheme }].  [setTheme v] replaces the
    state with [v] whatever it currently is. *)
Record ThemeContext : Type := mkThemeContext {
  theme : string;
  setTheme : string -> string -> string
}.

(** [ThemeProvider] hands the state and its setter to its children, and
    [useTheme] reads them back. *)
Definition ThemeProvider (state : string) : ThemeContext :=
  mkThemeContext state (fun v _ => v).

Definition useTheme (state : string) : ThemeContext := ThemeProvider state.

(** [<div style={{ background }}><button onClick=...>] *)
Record Element : Type := mkElement {
  background : string;
  onClick : string -> string
}.

(** The expression handed to [setTheme]:
    [theme === 'dark' ? 'light' : 'dark']. *)
Definition toggle (theme : string) : string :=
  if String.eqb theme "dark" then "light" else "dark".

(** The component [App]; its handler closes over the [theme] of the
    render that created it. *)
Definition App (state : string) : Element :=
  let ctx := useTheme state in
  let theme := theme ctx in
  let setTheme := setTheme ctx in
  mkElement (if String.eqb theme "dark" then "#333" else "#fff")
            (setTheme (toggle theme)).

(** One click on the button currently shown, then a new render. *)
Definition click (state : string) : string := onClick (App state) state.

(** The themes seen from the initial one through clicks. *)
Inductive reachable : string -> Prop :=
| reach_initial : reachable initial_theme
| reach_click : forall state, reachable state -> reachable (click state).

End ContextAPI.

(** ** The four counter examples behind one interface *)

Record CounterApp : Type := mkCounterApp {
  Store : Type;
  (** the store when the page is loaded *)
  initial : Store;
  (** the counter component, rendered from the store *)
  render : Store -> Element Store;
  (** the number the store holds, and the store holding a given number *)
  value : Store -> number;
  holding : number -> Store
}.

Inductive CounterLibrary : Type := zustand | recoil | jotai | mobx.

Definition app (lib : CounterLibrary) : CounterApp :=
  match lib with
  | zustand =>
      mkCounterApp Zustand.State Zustand.useStore Zustand.Counter
                   Zustand.count Zustand.mkState
  | recoil =>
      mkCounterApp number Recoil.countState Recoil.Counter
                   (fun v => v) (fun v => v)
  | jotai =>
      mkCounterApp number Jotai.countAtom Jotai.Counter
                   (fun v => v) (fun v => v)
  | mobx =>
      mkCounterApp MobX.CounterStore MobX.counterStore MobX.Counter
                   MobX.count MobX.mkCounterStore
  end.

(** One click: the handler of the element on screen runs on the store,
    and the component is rendered again from the result. *)
Definition click (a : CounterApp) (s : Store a) : Store a :=
  onClick (render a s) s.

(** The store after [n] clicks on a freshly loaded page. *)
Definition clicks (a : CounterApp) (n : N) : Store a :=
  N.iter n (click a) (initial a).

(** The count on screen. *)
Definition displayed (a : CounterApp) (s : Store a) : option number :=
  shown "Count: " (render a s).

(** The increment as a step function on the number held. *)
Definition step (lib : CounterLibrary) (n : number) : number :=
  value (app lib) (click (app lib) (holding (app lib) n)).

(** The stores seen from the initial one through clicks. *)
Inductive reachable (a : CounterApp) : Store a -> Prop :=
| reach_initial : reachable a (initial a)
| reach_click : forall s, reachable a s -> reachable a (click a s).

(** ** The five examples and the state each one manages *)

Inductive JsValue : Type :=
| JsNumber (n : number)
| JsString (s : string).

Inductive Library : Type :=
| context_api
| counter_library (lib : CounterLibrary).

(** The name of the piece of state and the value it starts with. *)
Definition state_name (l : Library) : string :=
  match l with
  | context_api => "theme"
  | counter_library _ => "count"
  end.

Definition initial_state (l : Library) : JsValue :=
  match l with
  | context_api => JsString ContextAPI.initial_theme
  | counter_library lib => JsNumber (value (app lib) (initial (app lib)))
  end.

(** ** The two operations as functions that may fail

    No handler contains a [throw], and [+] on numbers has no failing
    case, so both operations are the unit of the error monad applied to
    the total functions above. *)

Inductive JsError : Type := TypeError | RangeError.

Inductive Except (E A : Type) : Type :=
| ok (a : A)
| error (e : E).
Arguments ok {E A} _.
Arguments error {E A} _.

Definition read (a : CounterApp) (s : Store a) : Except JsError number :=
  ok (value a s).

Definition increment (a : CounterApp) (s : Store a)
  : Except JsError (Store a) :=
  ok (click a s).

Definition bind {E A B : Type} (m : Except E A) (k : A -> Except E B)
  : Except E B :=
  match m with
  | ok a => k a
  | error e => error e
  end.

(** [n] increments in a row on a freshly loaded page, stopping at the
    first failure. *)
Definition increments (a : CounterApp) (n : N) : Except JsError (Store a) :=
  N.iter n (fun m => bind m (increment a)) (ok (initial a)).

(** ** Events and renders

    An element stays on screen until the next render, so two events can
    reach the handler of one and the same element. *)

(** Two clicks delivered to the element rendered from [s], with no
    render in between. *)
Definition click_twice_same_render (a : CounterApp) (s : Store a) : Store a :=
  let el := render a s in
  onClick el (onClick el s).

(** The same for the button of [App]. *)
Definition theme_click_twice_same_render (state : string) : string :=
  let el := ContextAPI.App state in
  ContextAPI.onClick el (ContextAPI.onClick el state).

(** The theme after [n] clicks on a freshly mounted [ThemeProvider]. *)
Definition theme_after_clicks (n : N) : string :=
  N.iter n ContextAPI.click ContextAPI.initial_theme.

(** * Facts about number arithmetic *)
Module NumberFacts.

Lemma two53_value : two53 = 9007199254740992.
Proof. reflexivity. Qed.

Lemma round_safe (z : Z) : - two53 <= z <= two53 -> round z = z.
Proof.
  intros Hz. unfold round.
  destruct (Z.leb_spec (Z.log2 (Z.abs z) - 52) 0) as [_ | He]; [reflexivity |].
  assert (Ha : 0 < Z.abs z).
  { destruct (Z.eq_dec z 0) as [-> | Hnz]; [discriminate He | lia]. }
  assert (Hlow : 2 ^ 53 <= Z.abs z) by (apply Z.log2_le_pow2; lia).
  fold two53 in Hlow.
  assert (Hcases : z = two53 \/ z = - two53) by lia.
  destruct Hcases as [-> | ->]; reflexivity.
Qed.

Lemma add_one_safe (v : number) : - two53 <= v < two53 -> add v 1 = v + 1.
Proof. intros Hv. apply round_safe. lia. Qed.

Lemma add_one_top : add two53 1 = two53.
Proof. reflexivity. Qed.

Lemma round_even_53 (c : Z) :
  2 ^ 52 <= c < 2 ^ 53 -> round (c * 2) = c * 2.
Proof.
  intros Hc.
  assert (Hlog : Z.log2 (c * 2) = 53).
  { apply Z.log2_unique; [lia |].
    change (Z.succ 53) with 54.
    change (2 ^ 52) with 4503599627370496 in Hc.
    change (2 ^ 53) with 9007199254740992 in *.
    change (2 ^ 54) with 18014398509481984. lia. }
  assert (Hpos : 0 < c * 2).
  { change (2 ^ 52) with 4503599627370496 in Hc. lia. }
  unfold round.
  rewrite (Z.abs_eq (c * 2)) by lia.
  rewrite Hlog. change (53 - 52 <=? 0) with false.
  change (2 ^ (53 - 52)) with 2. cbv zeta.
  rewrite Z.mod_mul by lia. rewrite Z.div_mul by lia.
  change (0 <? 2 / 2) with true. cbv iota.
  rewrite (Z.sgn_pos _ Hpos). lia.
Qed.

Lemma mul_two_counter (c : number) : 0 <= c <= two53 -> mul c 2 = 2 * c.
Proof.
  intros Hc. unfold mul.
  assert (Hw : 2 ^ 52 = 4503599627370496) by reflexivity.
  rewrite two53_value in Hc.
  destruct (Z_lt_le_dec c (2 ^ 52)) as [Hlt | Hge].
  - rewrite round_safe; [lia | rewrite two53_value; lia].
  - destruct (Z.eq_dec c 9007199254740992) as [-> | Hne].
    + reflexivity.
    + rewrite round_even_53; [lia |].
      change (2 ^ 53) with 9007199254740992. lia.
Qed.

End NumberFacts.

Import NumberFacts.

(** The rounding model agrees with the machine's binary64 arithmetic
    around the point where the counter stops moving. *)
Example binary64_top_plus_one :
  PrimFloat.eqb (PrimFloat.add 9007199254740992%float 1%float)
                9007199254740992%float = true.
Proof. reflexivity. Qed.

Example binary64_add_agrees :
  forallb (fun z => PrimFloat.eqb (PrimFloat.add (to_float z) (to_float 1))
                                  (to_float (add z 1)))
          [0; 1; 2; 41; two53 - 2; two53 - 1; two53; two53 + 2; two53 + 4;
           2 * two53; 2 * two53 + 4; 2 * two53 + 8] = true.
Proof. vm_compute. reflexivity. Qed.

Example binary64_mul_agrees :
  forallb (fun z => PrimFloat.eqb (PrimFloat.mul (to_float z) (to_float 2))
                                  (to_float (mul z 2)))
          [0; 1; 3; two53 / 2; two53 / 2 + 1; two53 - 1; two53] = true.
Proof. vm_compute. reflexivity. Qed.

(** * Facts shared by the four counters *)

Lemma value_click (lib : CounterLibrary) (s : Store (app lib)) :
  value (app lib) (click (app lib) s) = add (value (app lib) s) 1.
Proof. destruct lib; reflexivity. Qed.

Lemma displayed_value (lib : CounterLibrary) (s : Store (app lib)) :
  displayed (app lib) s = Some (value (app lib) s).
Proof. destruct lib; reflexivity. Qed.

Lemma value_holding (lib : CounterLibrary) (n : number) :
  value (app lib) (holding (app lib) n) = n.
Proof. destruct lib; reflexivity. Qed.

Lemma holding_value (lib : CounterLibrary) (s : Store (app lib)) :
  holding (app lib) (value (app lib) s) = s.
Proof. destruct lib; try reflexivity; destruct s; reflexivity. Qed.

Lemma step_add (lib : CounterLibrary) (n : number) : step lib n = add n 1.
Proof. unfold step. rewrite value_click, value_holding. reflexivity. Qed.

Lemma clicks_succ (a : CounterApp) (n : N) :
  clicks a (N.succ n) = click a (clicks a n).
Proof. unfold clicks. apply N.iter_succ. Qed.

(** After [n] clicks the counter holds [n], until it reaches 2^53, where
    it stays. *)
Lemma value_clicks (lib : CounterLibrary) (n : N) :
  value (app lib) (clicks (app lib) n) = Z.min (Z.of_N n) two53.
Proof.
  induction n as [| n IH] using N.peano_ind.
  - destruct lib; reflexivity.
  - rewrite clicks_succ, value_click, IH.
    destruct (Z_lt_le_dec (Z.of_N n) two53) as [Hlt | Hge].
    + rewrite Z.min_l by lia. rewrite add_one_safe by lia.
      rewrite Z.min_l by lia. lia.
    + rewrite Z.min_r by lia. rewrite add_one_top.
      rewrite Z.min_r by lia. reflexivity.
Qed.

Lemma reachable_clicks (a : CounterApp) (n : N) : reachable a (clicks a n).
Proof.
  induction n as [| n IH] using N.peano_ind.
  - apply reach_initial.
  - rewrite clicks_succ. apply reach_click. exact IH.
Qed.

Lemma reachable_holding (lib : CounterLibrary) (n : N) :
  Z.of_N n <= two53 -> reachable (app lib) (holding (app lib) (Z.of_N n)).
Proof.
  intros Hn.
  pose proof (reachable_clicks (app lib) n) as H.
  rewrite <- (holding_value lib (clicks (app lib) n)) in H.
  rewrite value_clicks, Z.min_l in H by lia.
  exact H.
Qed.

Lemma reachable_range (lib : CounterLibrary) (s : Store (app lib)) :
  reachable (app lib) s -> 0 <= value (app lib) s <= two53.
Proof.
  induction 1 as [| s _ IH].
  - destruct lib; split; intro H; discriminate H.
  - rewrite value_click.
    destruct (Z.eq_dec (value (app lib) s) two53) as [-> | Hne].
    + rewrite add_one_top. rewrite two53_value. lia.
    + rewrite add_one_safe by lia. lia.
Qed.

(** The Recoil handler is a constant function of the store: run twice
    without a render in between it still stores the rendered count plus
    one, whereas the Jotai updater would add two.  With a render after
    every click, as in [click], the two agree. *)
Remark Recoil_handler_uses_rendered_count (rendered current : number) :
  onClick (Recoil.Counter rendered) current = add rendered 1.
Proof. reflexivity. Qed.

Remark Jotai_handler_uses_current_value (rendered current : number) :
  onClick (Jotai.Counter rendered) current = add current 1.
Proof. reflexivity. Qed.

(** * The counters *)

(** C1, as stated, fails: after 2^53 + 1 clicks every counter shows
    2^53, not 2^53 + 1, because 2^53 + 1 is not a binary64 value. *)
Lemma count_after_clicks_counterexample :
  displayed (app zustand) (clicks (app zustand) 9007199254740993)
    <> Some 9007199254740993
  /\ displayed (app recoil) (clicks (app recoil) 9007199254740993)
    <> Some 9007199254740993
  /\ displayed (app jotai) (clicks (app jotai) 9007199254740993)
    <> Some 9007199254740993
  /\ displayed (app mobx) (clicks (app mobx) 9007199254740993)
    <> Some 9007199254740993.
Proof.
  split; [| split; [| split]];
    rewrite displayed_value, value_clicks; discriminate.
Qed.

(** C1 (amended): for every natural number n up to 2^53, n clicks on a
    freshly loaded counter leave the count n on screen, in each of the
    Zustand, Recoil, Jotai and MobX examples. *)
Theorem count_after_clicks (lib : CounterLibrary) (n : N) :
  Z.of_N n <= two53 ->
  displayed (app lib) (clicks (app lib) n) = Some (Z.of_N n).
Proof.
  intros Hn. rewrite displayed_value, value_clicks.
  rewrite Z.min_l by exact Hn. reflexivity.
Qed.

Lemma count_after_clicks_witness :
  Z.of_N 3 <= two53
  /\ displayed (app zustand) (clicks (app zustand) 3) = Some 3
  /\ displayed (app recoil) (clicks (app recoil) 3) = Some 3
  /\ displayed (app jotai) (clicks (app jotai) 3) = Some 3
  /\ displayed (app mobx) (clicks (app mobx) 3) = Some 3.
Proof.
  assert (H : Z.of_N 3 <= two53) by (vm_compute; discriminate).
  exact (conj H
          (conj (count_after_clicks zustand 3 H)
          (conj (count_after_clicks recoil 3 H)
          (conj (count_after_clicks jotai 3 H)
                (count_after_clicks mobx 3 H))))).
Defined.

(** C2: in the Recoil example, at every store reachable from the initial
    one by clicks, the element on screen shows doubleCount = 2 * count. *)
Theorem Recoil_doubleCount (s : Store (app recoil)) :
  reachable (app recoil) s ->
  shown "Double Count: " (render (app recoil) s)
    = Some (2 * value (app recoil) s).
Proof.
  intros Hs. apply (reachable_range recoil) in Hs.
  cbn in *. unfold shown. cbn. unfold Recoil.doubleCountState.
  rewrite mul_two_counter by exact Hs. reflexivity.
Qed.

Lemma Recoil_doubleCount_witness :
  reachable (app recoil) 3
  /\ shown "Double Count: " (Recoil.Counter 3) = Some 6.
Proof.
  assert (H : reachable (app recoil) 3).
  { exact (reach_click _ _ (reach_click _ _ (reach_click _ _
             (reach_initial (app recoil))))). }
  split; [exact H | exact (Recoil_doubleCount 3 H)].
Defined.

(** C3: in every counter example the count is 0, in the store and on
    screen, before any click. *)
Theorem initial_count_zero (lib : CounterLibrary) :
  value (app lib) (initial (app lib)) = 0
  /\ displayed (app lib) (clicks (app lib) 0) = Some 0.
Proof. destruct lib; split; reflexivity. Qed.

(** C4, as stated, fails: the store holding 2^53 is reached by clicking,
    and one more increment leaves 2^53 in it instead of 2^53 + 1. *)
Lemma increment_adds_one_counterexample :
  (reachable (app zustand) (Zustand.mkState 9007199254740992)
   /\ Zustand.count (click (app zustand) (Zustand.mkState 9007199254740992))
        <> 9007199254740992 + 1)
  /\ (reachable (app recoil) 9007199254740992
      /\ click (app recoil) 9007199254740992 <> 9007199254740992 + 1)
  /\ (reachable (app jotai) 9007199254740992
      /\ click (app jotai) 9007199254740992 <> 9007199254740992 + 1)
  /\ (reachable (app mobx) (MobX.mkCounterStore 9007199254740992)
      /\ MobX.count (click (app mobx) (MobX.mkCounterStore 9007199254740992))
           <> 9007199254740992 + 1).
Proof.
  assert (Hle : Z.of_N 9007199254740992 <= two53) by (vm_compute; discriminate).
  split; [| split; [| split]].
  - split; [exact (reachable_holding zustand 9007199254740992 Hle) |].
    vm_compute; discriminate.
  - split; [exact (reachable_holding recoil 9007199254740992 Hle) |].
    vm_compute; discriminate.
  - split; [exact (reachable_holding jotai 9007199254740992 Hle) |].
    vm_compute; discriminate.
  - split; [exact (reachable_holding mobx 9007199254740992 Hle) |].
    vm_compute; discriminate.
Qed.

(** C4 (amended): in every counter example, for every counter state
    holding v with -2^53 <= v < 2^53, one increment produces the state
    holding v + 1. *)
Theorem increment_adds_one (lib : CounterLibrary) (s : Store (app lib)) :
  - two53 <= value (app lib) s < two53 ->
  value (app lib) (click (app lib) s) = value (app lib) s + 1
  /\ displayed (app lib) (click (app lib) s) = Some (value (app lib) s + 1).
Proof.
  intros Hv. rewrite displayed_value, value_click.
  rewrite add_one_safe by exact Hv. split; reflexivity.
Qed.

Lemma increment_adds_one_witness :
  - two53 <= value (app mobx) (MobX.mkCounterStore 41) < two53
  /\ value (app mobx) (click (app mobx) (MobX.mkCounterStore 41)) = 41 + 1
  /\ displayed (app mobx) (click (app mobx) (MobX.mkCounterStore 41))
       = Some (41 + 1).
Proof.
  assert (H : - two53 <= value (app mobx) (MobX.mkCounterStore 41) < two53).
  { split; vm_compute; [discriminate | reflexivity]. }
  exact (conj H (increment_adds_one mobx (MobX.mkCounterStore 41) H)).
Defined.

(** * The state each example manages *)

(** C5, as stated, fails: the Context API example manages the string
    theme, initialised to 'light'; it has no count and no integer. *)
Lemma every_state_is_count_zero_counterexample :
  state_name context_api <> "count"%string
  /\ initial_state context_api = JsString "light"
  /\ initial_state context_api <> JsNumber 0.
Proof. repeat split; discriminate. Qed.

(** C5 (amended): the state managed by each of the four counter examples
    (Zustand, Recoil, Jotai, MobX) is a single number named count,
    initialised to 0; the fifth example, Context API, manages a string
    named theme, initialised to 'light'. *)
Theorem managed_state_of_each_example :
  (forall lib : CounterLibrary,
     state_name (counter_library lib) = "count"%string
     /\ initial_state (counter_library lib) = JsNumber 0)
  /\ state_name context_api = "theme"%string
  /\ initial_state context_api = JsString "light".
Proof.
  split; [intros lib; destruct lib; split; reflexivity |].
  split; reflexivity.
Qed.

(** C6, as stated, fails: 2^53 clicks reach a store whose count the next
    increment does not increase. *)
Lemma count_grows_by_one_counterexample :
  reachable (app jotai) (clicks (app jotai) 9007199254740992)
  /\ 0 <= value (app jotai) (clicks (app jotai) 9007199254740992)
  /\ value (app jotai) (click (app jotai) (clicks (app jotai) 9007199254740992))
       <> value (app jotai) (clicks (app jotai) 9007199254740992) + 1.
Proof.
  split; [apply reachable_clicks |].
  rewrite value_click, value_clicks.
  split; [vm_compute | vm_compute]; discriminate.
Qed.

(** C6 (amended): starting from the initial state 0, every state reachable
    by increments holds a non-negative integer, at most 2^53, and each
    increment of a state below 2^53 increases it by exactly one. *)
Theorem count_nonnegative_grows_by_one
  (lib : CounterLibrary) (s : Store (app lib)) :
  reachable (app lib) s ->
  0 <= value (app lib) s <= two53
  /\ (value (app lib) s < two53 ->
      value (app lib) (click (app lib) s) = value (app lib) s + 1).
Proof.
  intros Hs. apply reachable_range in Hs. split; [exact Hs |].
  intros Hlt. rewrite value_click. apply add_one_safe. lia.
Qed.

Lemma count_nonnegative_grows_by_one_witness :
  reachable (app zustand) (Zustand.mkState 2)
  /\ 0 <= 2 <= two53
  /\ Zustand.count (click (app zustand) (Zustand.mkState 2)) = 2 + 1.
Proof.
  assert (H : reachable (app zustand) (Zustand.mkState 2)).
  { exact (reach_click _ _ (reach_click _ _ (reach_initial (app zustand)))). }
  assert (Hlt : 2 < two53) by reflexivity.
  exact (conj H
          (conj (proj1 (count_nonnegative_grows_by_one zustand _ H))
                (proj2 (count_nonnegative_grows_by_one zustand _ H) Hlt))).
Defined.

(** * Reading and incrementing never fail *)

Lemma increments_succeed (a : CounterApp) (n : N) :
  increments a n = ok (clicks a n).
Proof.
  induction n as [| n IH] using N.peano_ind.
  - reflexivity.
  - unfold increments in *. rewrite N.iter_succ, IH, clicks_succ.
    reflexivity.
Qed.

(** C7: for every counter state, read returns the current value (the
    one on screen) as a success, and increment returns a success; neither
    ever returns an error. *)
Theorem read_and_increment_succeed (lib : CounterLibrary) (s : Store (app lib)) :
  read (app lib) s = ok (value (app lib) s)
  /\ displayed (app lib) s = Some (value (app lib) s)
  /\ increment (app lib) s = ok (click (app lib) s)
  /\ (forall e, read (app lib) s <> error e)
  /\ (forall e, increment (app lib) s <> error e).
Proof.
  split; [reflexivity |].
  split; [apply displayed_value |].
  split; [reflexivity |].
  split; intros e; discriminate.
Qed.

(** * The four increments as one step function *)

(** C8, as stated, fails: at the integer state 2^53 each of the four
    increments returns 2^53, not 2^53 + 1. *)
Lemma same_step_function_counterexample :
  step zustand 9007199254740992 <> 9007199254740992 + 1
  /\ step recoil 9007199254740992 <> 9007199254740992 + 1
  /\ step jotai 9007199254740992 <> 9007199254740992 + 1
  /\ step mobx 9007199254740992 <> 9007199254740992 + 1.
Proof. split; [| split; [| split]]; vm_compute; discriminate. Qed.

(** C8 (amended): the four increments denote the same function on
    number states, n maps to the binary64 sum n + 1, which is the
    integer n + 1 whenever -2^53 <= n < 2^53; so the four counter stores
    are extensionally equivalent as step functions. *)
Theorem same_step_function (l1 l2 : CounterLibrary) (n : number) :
  step l1 n = step l2 n
  /\ step l1 n = add n 1
  /\ (- two53 <= n < two53 -> step l1 n = n + 1).
Proof.
  rewrite !step_add. split; [reflexivity |]. split; [reflexivity |].
  apply add_one_safe.
Qed.

Lemma same_step_function_witness :
  step recoil 7 = step jotai 7
  /\ step recoil 7 = add 7 1
  /\ step recoil 7 = 7 + 1.
Proof.
  assert (H : - two53 <= 7 < two53).
  { split; vm_compute; [discriminate | reflexivity]. }
  exact (conj (proj1 (same_step_function recoil jotai 7))
          (conj (proj1 (proj2 (same_step_function recoil jotai 7)))
                (proj2 (proj2 (same_step_function recoil jotai 7)) H))).
Defined.

(** * The theme of the Context API example *)

Lemma click_is_toggle (theme : string) :
  ContextAPI.click theme = ContextAPI.toggle theme.
Proof. reflexivity. Qed.

(** Outside the two themes the toggle is not an involution: any other
    string is sent to 'dark' and then to 'light'. *)
Remark toggle_twice_other :
  ContextAPI.toggle (ContextAPI.toggle "blue") = "light"%string.
Proof. reflexivity. Qed.

(** C9: on the themes 'light' and 'dark', applying the toggle twice
    returns the original theme. *)
Theorem toggle_involution (theme : string) :
  theme = "light"%string \/ theme = "dark"%string ->
  ContextAPI.toggle (ContextAPI.toggle theme) = theme.
Proof. intros [-> | ->]; reflexivity. Qed.

Lemma toggle_involution_witness :
  ("dark"%string = "light"%string \/ "dark"%string = "dark"%string)
  /\ ContextAPI.toggle (ContextAPI.toggle "dark") = "dark"%string.
Proof.
  assert (H : "dark"%string = "light"%string \/ "dark"%string = "dark"%string)
    by (right; reflexivity).
  exact (conj H (toggle_involution "dark" H)).
Defined.

(** C10: every theme reachable from 'light' by toggle clicks is 'light'
    or 'dark', and the background on screen is '#333' exactly when the
    theme is 'dark', and '#fff' otherwise. *)
Theorem theme_invariant (theme : string) :
  ContextAPI.reachable theme ->
  (theme = "light"%string \/ theme = "dark"%string)
  /\ (ContextAPI.background (ContextAPI.App theme) = "#333"%string
      <-> theme = "dark"%string)
  /\ (theme <> "dark"%string ->
      ContextAPI.background (ContextAPI.App theme) = "#fff"%string).
Proof.
  intros Hr.
  assert (Htwo : theme = "light"%string \/ theme = "dark"%string).
  { induction Hr as [| theme _ [-> | ->]].
    - left; reflexivity.
    - right; reflexivity.
    - left; reflexivity. }
  split; [exact Htwo |].
  destruct Htwo as [-> | ->]; cbn.
  - split; [split; intros H; discriminate H | reflexivity].
  - split; [split; reflexivity | intros H; contradiction H; reflexivity].
Qed.

Lemma theme_invariant_witness :
  ContextAPI.reachable "dark"
  /\ ContextAPI.background (ContextAPI.App "dark") = "#333"%string.
Proof.
  assert (H : ContextAPI.reachable "dark").
  { exact (ContextAPI.reach_click _ ContextAPI.reach_initial). }
  exact (conj H
          (proj2 (proj1 (proj2 (theme_invariant "dark" H))) eq_refl)).
Defined.

(** * Further properties of the number arithmetic *)

(** Doubling commutes with rounding: the significand is unchanged and
    only the exponent moves. *)
Lemma round_double (z : Z) : round (2 * z) = 2 * round z.
Proof.
  destruct (Z.eq_dec z 0) as [-> | Hz]; [reflexivity |].
  assert (Ha : 0 < Z.abs z) by lia.
  assert (Habs : Z.abs (2 * z) = 2 * Z.abs z) by lia.
  assert (Hsgn : Z.sgn (2 * z) = Z.sgn z) by lia.
  assert (Hlog : Z.log2 (2 * Z.abs z) = Z.log2 (Z.abs z) + 1).
  { rewrite Z.log2_double by exact Ha. lia. }
  unfold round. rewrite Habs, Hlog, Hsgn.
  set (a := Z.abs z) in *. set (l := Z.log2 a) in *.
  destruct (Z.leb_spec (l - 52) 0) as [Hsmall | Hbig].
  - destruct (Z.leb_spec (l + 1 - 52) 0) as [_ | Hone]; [reflexivity |].
    assert (Hl : l = 52) by lia.
    rewrite Hl. change (2 ^ (52 + 1 - 52)) with 2. cbv zeta.
    rewrite (Z.mul_comm 2 a), Z.mod_mul, Z.div_mul by lia.
    change (0 <? 2 / 2) with true. cbv iota.
    assert (Hza : Z.sgn z * a = z) by (subst a; lia).
    lia.
  - destruct (Z.leb_spec (l + 1 - 52) 0) as [Himp | _]; [lia |].
    cbv zeta.
    replace (l + 1 - 52) with (Z.succ (l - 52)) by lia.
    rewrite Z.pow_succ_r by lia.
    set (u := 2 ^ (l - 52)).
    assert (Hu : 0 < u) by (apply Z.pow_pos_nonneg; lia).
    assert (Hueven : u = 2 * (u / 2)).
    { unfold u. replace (l - 52) with (Z.succ (l - 52 - 1)) by lia.
      rewrite Z.pow_succ_r by lia.
      rewrite (Z.mul_comm 2 (2 ^ (l - 52 - 1))), Z.div_mul by lia. lia. }
    rewrite Z.div_mul_cancel_l by lia.
    rewrite Z.mul_mod_distr_l by lia.
    rewrite (Z.mul_comm 2 u), Z.div_mul by lia.
    set (q := a / u). set (r := a mod u). set (h := u / 2) in *.
    assert (E1 : (2 * r <? u) = (r <? h)).
    { destruct (Z.ltb_spec (2 * r) u), (Z.ltb_spec r h); try reflexivity; lia. }
    assert (E2 : (u <? 2 * r) = (h <? r)).
    { destruct (Z.ltb_spec u (2 * r)), (Z.ltb_spec h r); try reflexivity; lia. }
    rewrite E1, E2.
    destruct (r <? h); [lia |].
    destruct (h <? r); [lia |].
    destruct (Z.even q); lia.
Qed.

(** X9: the Recoil selector doubles exactly every integer number the
    atom can hold, as long as the double does not overflow binary64
    (magnitude below 2^1023). *)
Theorem doubleCountState_exact (c : number) :
  representable c -> Z.abs c < 2 ^ 1023 ->
  Recoil.doubleCountState c = 2 * c /\ representable (2 * c).
Proof.
  intros Hc _. unfold Recoil.doubleCountState, mul, representable in *.
  rewrite (Z.mul_comm c 2), round_double, Hc. split; reflexivity.
Qed.

Lemma doubleCountState_exact_witness :
  representable (- 9007199254740994)
  /\ Z.abs (- 9007199254740994) < 2 ^ 1023
  /\ Recoil.doubleCountState (- 9007199254740994) = - 18014398509481988.
Proof.
  assert (H1 : representable (- 9007199254740994)) by reflexivity.
  assert (H2 : Z.abs (- 9007199254740994) < 2 ^ 1023) by reflexivity.
  exact (conj H1 (conj H2
           (proj1 (doubleCountState_exact (- 9007199254740994) H1 H2)))).
Defined.

(** * Runs of the counters *)

(** X1: in each counter example, after n clicks on a freshly loaded page
    the count on screen is n if n <= 2^53 and 2^53 otherwise: the
    counter saturates at 2^53. *)
Theorem count_saturates (lib : CounterLibrary) (n : N) :
  displayed (app lib) (clicks (app lib) n) = Some (Z.min (Z.of_N n) two53).
Proof. rewrite displayed_value, value_clicks. reflexivity. Qed.

(** X2: in each counter example the stores reachable by clicking are
    exactly those holding an integer from 0 to 2^53. *)
Theorem reachable_stores (lib : CounterLibrary) (s : Store (app lib)) :
  reachable (app lib) s <-> 0 <= value (app lib) s <= two53.
Proof.
  split; [apply reachable_range |].
  intros Hv. rewrite <- (holding_value lib s).
  rewrite <- (Z2N.id (value (app lib) s)) by lia.
  apply reachable_holding. rewrite Z2N.id by lia. lia.
Qed.

Lemma reachable_stores_witness :
  0 <= value (app mobx) (MobX.mkCounterStore 5) <= two53
  /\ reachable (app mobx) (MobX.mkCounterStore 5).
Proof.
  assert (H : 0 <= value (app mobx) (MobX.mkCounterStore 5) <= two53).
  { split; intro C; discriminate C. }
  exact (conj H (proj2 (reachable_stores mobx (MobX.mkCounterStore 5)) H)).
Defined.

(** X3: at a reachable store a click never lowers the count and never
    raises it by more than one, and it leaves the count unchanged exactly
    when the count is 2^53. *)
Theorem count_stuck_only_at_top (lib : CounterLibrary) (s : Store (app lib)) :
  reachable (app lib) s ->
  value (app lib) s <= value (app lib) (click (app lib) s)
    <= value (app lib) s + 1
  /\ (value (app lib) (click (app lib) s) = value (app lib) s
      <-> value (app lib) s = two53).
Proof.
  intros Hs. apply reachable_range in Hs. rewrite value_click.
  destruct (Z.eq_dec (value (app lib) s) two53) as [-> | Hne].
  - rewrite add_one_top. split; [lia | split; reflexivity].
  - rewrite add_one_safe by lia. split; [lia | split; lia].
Qed.

Lemma count_stuck_only_at_top_witness :
  reachable (app jotai) 1
  /\ 1 <= click (app jotai) 1 <= 1 + 1
  /\ (click (app jotai) 1 = 1 <-> 1 = two53).
Proof.
  assert (H : reachable (app jotai) 1).
  { exact (reach_click _ _ (reach_initial (app jotai))). }
  exact (conj H (count_stuck_only_at_top jotai 1 H)).
Defined.

(** X8: in the Recoil example, after n clicks the element shows
    Double Count = 2 * min(n, 2^53); in particular 2 * n up to 2^53
    clicks. *)
Theorem Recoil_doubleCount_after_clicks (n : N) :
  shown "Double Count: " (Recoil.Counter (clicks (app recoil) n))
    = Some (2 * Z.min (Z.of_N n) two53).
Proof.
  pose proof (value_clicks recoil n) as Hv. cbn in Hv.
  unfold shown. cbn. unfold Recoil.doubleCountState.
  rewrite Hv. pose proof two53_value as Ht.
  rewrite mul_two_counter by lia. reflexivity.
Qed.

Lemma value_click_twice_same_render
  (lib : CounterLibrary) (s : Store (app lib)) :
  value (app lib) (click_twice_same_render (app lib) s)
    = match lib with
      | recoil => add (value (app lib) s) 1
      | _ => add (add (value (app lib) s) 1) 1
      end.
Proof. destruct lib; reflexivity. Qed.

(** X4: two clicks that reach the same rendered element.  The Recoil
    handler stores the rendered count plus one, so the second click is
    lost; the Zustand, Jotai and MobX handlers read the store and count
    both. *)
Theorem two_clicks_one_render (lib : CounterLibrary) (s : Store (app lib)) :
  - two53 <= value (app lib) s < two53 - 1 ->
  value (app lib) (click_twice_same_render (app lib) s)
    = match lib with
      | recoil => value (app lib) s + 1
      | _ => value (app lib) s + 2
      end
  /\ value (app lib) (click (app lib) (click (app lib) s))
     = value (app lib) s + 2.
Proof.
  intros Hv. split.
  - rewrite value_click_twice_same_render.
    rewrite (add_one_safe (value (app lib) s)) by lia.
    destruct lib; try reflexivity; rewrite add_one_safe by lia; lia.
  - rewrite !value_click.
    rewrite (add_one_safe (value (app lib) s)) by lia.
    rewrite add_one_safe by lia. lia.
Qed.

Lemma two_clicks_one_render_witness :
  - two53 <= 4 < two53 - 1
  /\ click_twice_same_render (app recoil) 4 = 4 + 1
  /\ click (app recoil) (click (app recoil) 4) = 4 + 2.
Proof.
  assert (H : - two53 <= 4 < two53 - 1).
  { split; [intro C; discriminate C | reflexivity]. }
  exact (conj H (two_clicks_one_render recoil 4 H)).
Defined.

(** * Runs of the theme toggle *)

Lemma theme_after_clicks_succ (n : N) :
  theme_after_clicks (N.succ n) = ContextAPI.click (theme_after_clicks n).
Proof. unfold theme_after_clicks. apply N.iter_succ. Qed.

(** X5: after n clicks on a freshly mounted provider the theme is 'dark'
    when n is odd and 'light' when n is even, and the background follows
    it. *)
Theorem theme_parity (n : N) :
  theme_after_clicks n = (if N.odd n then "dark" else "light")%string
  /\ ContextAPI.background (ContextAPI.App (theme_after_clicks n))
     = (if N.odd n then "#333" else "#fff")%string.
Proof.
  assert (H : theme_after_clicks n
              = (if N.odd n then "dark" else "light")%string).
  { induction n as [| n IH] using N.peano_ind.
    - reflexivity.
    - rewrite theme_after_clicks_succ, IH, N.odd_succ, <- N.negb_odd.
      destruct (N.odd n); reflexivity. }
  split; [exact H |].
  rewrite H. destruct (N.odd n); reflexivity.
Qed.

(** X6: whatever string the theme holds (any consumer of the context can
    call setTheme), the background is '#333' for 'dark' and '#fff' for
    everything else, and one click stores 'light' for 'dark' and 'dark'
    for everything else; so after one click the theme is one of the
    two. *)
Theorem click_normalises_theme (theme : string) :
  (theme = "dark"%string
   /\ ContextAPI.background (ContextAPI.App theme) = "#333"%string
   /\ ContextAPI.click theme = "light"%string)
  \/ (theme <> "dark"%string
      /\ ContextAPI.background (ContextAPI.App theme) = "#fff"%string
      /\ ContextAPI.click theme = "dark"%string).
Proof.
  unfold ContextAPI.click, ContextAPI.App, ContextAPI.toggle. cbn.
  destruct (String.eqb_spec theme "dark") as [-> | Hne].
  - left. repeat split.
  - right. repeat split. exact Hne.
Qed.

(** The comparison is exact: a theme spelled 'Dark' is rendered as a
    light one and toggles to 'dark'. *)
Remark theme_is_case_sensitive :
  ContextAPI.background (ContextAPI.App "Dark") = "#fff"%string
  /\ ContextAPI.click "Dark" = "dark"%string.
Proof. split; reflexivity. Qed.

(** X7: the handler of [App] stores the opposite of the rendered theme,
    so two clicks that reach the same rendered element toggle once,
    while two clicks with a render in between restore the theme. *)
Theorem two_toggles_one_render (theme : string) :
  theme = "light"%string \/ theme = "dark"%string ->
  theme_click_twice_same_render theme = ContextAPI.toggle theme
  /\ theme_click_twice_same_render theme <> theme
  /\ ContextAPI.click (ContextAPI.click theme) = theme.
Proof.
  intros [-> | ->]; repeat split; discriminate.
Qed.

Lemma two_toggles_one_render_witness :
  ("light"%string = "light"%string \/ "light"%string = "dark"%string)
  /\ theme_click_twice_same_render "light" = "dark"%string
  /\ ContextAPI.click (ContextAPI.click "light") = "light"%string.
Proof.
  assert (H : "light"%string = "light"%string \/ "light"%string = "dark"%string)
    by (left; reflexivity).
  exact (conj H
          (conj (proj1 (two_toggles_one_render "light" H))
                (proj2 (proj2 (two_toggles_one_render "light" H))))).
Defined.
